(** * quiz_game: credential management and scoring (src/master.py)

    A shallow embedding of the [QuizGame] class of [src/master.py]:
    Python strings are sequences of Unicode code points, [bytes] objects are
    sequences of octets, the SQLite connection is a record of tables, and
    every method is a computation in a state-and-exception monad over the
    process state (database, injected storage faults, log, console,
    entropy source). *)

From Stdlib Require Import NArith ZArith List Lia String Ascii Bool DecimalString.
From stdpp Require Import base option list gmap.

Import ListNotations.
Local Open Scope N_scope.

(** ** Python values *)

(** A [str] is a sequence of code points, a [bytes] a sequence of octets. *)
Abbreviation pystr := (list N) (only parsing).
Abbreviation bytes := (list N) (only parsing).

(** String literals of the source, as code points. *)
Definition py (s : string) : pystr := map N_of_ascii (list_ascii_of_string s).

(** The exceptions of [sqlite3]: [Error] and its subclasses. *)
Inductive sqlite_class :=
  | InterfaceError
  | DatabaseError
  | DataError
  | OperationalError
  | IntegrityError
  | InternalError
  | ProgrammingError
  | NotSupportedError.

Inductive exn :=
  | SqliteError (c : sqlite_class) (msg : string)
  | UnicodeEncodeError
  | UnicodeDecodeError
  | EOFError
  | ZeroDivisionError.

Inductive outcome (A : Type) :=
  | Return (a : A)
  | Raise (e : exn).
Arguments Return {A} a.
Arguments Raise {A} e.

Definition obind {A B} (o : outcome A) (k : A -> outcome B) : outcome B :=
  match o with
  | Return a => k a
  | Raise e => Raise e
  end.

(** ** Codecs: [str.encode], [bytes.decode], [binascii.hexlify] *)

Definition is_surrogate (c : N) : bool := (0xD800 <=? c) && (c <=? 0xDFFF).

(** [str.encode("utf-8")] on one code point; lone surrogates are refused. *)
Definition utf8_char (c : N) : outcome bytes :=
  if c <? 0x80 then Return [c]
  else if c <? 0x800 then
    Return [N.lor 0xC0 (N.shiftr c 6); N.lor 0x80 (N.land c 0x3F)]
  else if c <? 0x10000 then
    if is_surrogate c then Raise UnicodeEncodeError
    else Return [N.lor 0xE0 (N.shiftr c 12);
                 N.lor 0x80 (N.land (N.shiftr c 6) 0x3F);
                 N.lor 0x80 (N.land c 0x3F)]
  else
    Return [N.lor 0xF0 (N.shiftr c 18);
            N.lor 0x80 (N.land (N.shiftr c 12) 0x3F);
            N.lor 0x80 (N.land (N.shiftr c 6) 0x3F);
            N.lor 0x80 (N.land c 0x3F)].

Fixpoint encode_utf8 (s : pystr) : outcome bytes :=
  match s with
  | [] => Return []
  | c :: s' =>
      obind (utf8_char c) (fun b =>
      obind (encode_utf8 s') (fun bs => Return (b ++ bs)))
  end.

(** [str.encode("ascii")]: every code point must be below 128. *)
Definition encode_ascii (s : pystr) : outcome bytes :=
  if forallb (fun c => c <? 0x80) s then Return s else Raise UnicodeEncodeError.

(** [bytes.decode("ascii")]: every octet must be below 128. *)
Definition decode_ascii (b : bytes) : outcome pystr :=
  if forallb (fun c => c <? 0x80) b then Return b else Raise UnicodeDecodeError.

(** One lower-case hexadecimal digit, as its ASCII code. *)
Definition hexdigit (d : N) : N := if d <? 10 then 48 + d else 87 + d.

(** [binascii.hexlify]: two lower-case hex digits per octet. *)
Definition hexlify (b : bytes) : bytes :=
  flat_map (fun x => [hexdigit ((x / 16) mod 16); hexdigit (x mod 16)]) b.

Definition is_hexchar (c : N) : bool :=
  ((48 <=? c) && (c <=? 57)) || ((97 <=? c) && (c <=? 102)).

(** ** Character classes: [str.isalnum], [str.lower], [str.strip] *)

(** The Unicode character database outside the ASCII range.  [str.lower] is
    taken on whole strings there, since it is context sensitive (final
    sigma). *)
Record unicode_db := {
  uni_isalnum : N -> bool;
  uni_isspace : N -> bool;
  uni_lower : pystr -> pystr
}.

Definition ascii_isalnum (c : N) : bool :=
  ((48 <=? c) && (c <=? 57)) || ((65 <=? c) && (c <=? 90))
  || ((97 <=? c) && (c <=? 122)).

(** Whitespace below 128 according to [str.isspace]: TAB..CR, FS..US, SPACE. *)
Definition ascii_isspace (c : N) : bool :=
  ((9 <=? c) && (c <=? 13)) || ((28 <=? c) && (c <=? 32)).

Definition ascii_lower (c : N) : N :=
  if (65 <=? c) && (c <=? 90) then c + 32 else c.

Definition is_ascii (s : pystr) : bool := forallb (fun c => c <? 0x80) s.

Fixpoint lstrip (sp : N -> bool) (s : pystr) : pystr :=
  match s with
  | [] => []
  | c :: s' => if sp c then lstrip sp s' else s
  end.

Section Unicode.
Variable U : unicode_db.

(** One character of [str.isalnum]; surrogates have category Cs and are
    never alphanumeric. *)
Definition char_isalnum (c : N) : bool :=
  if c <? 0x80 then ascii_isalnum c
  else negb (is_surrogate c) && uni_isalnum U c.

(** [s.isalnum()]: at least one character, all of them alphanumeric. *)
Definition str_isalnum (s : pystr) : bool :=
  negb (Nat.eqb (length s) 0) && forallb char_isalnum s.

Definition char_isspace (c : N) : bool :=
  if c <? 0x80 then ascii_isspace c else uni_isspace U c.

(** [s.lower()] *)
Definition str_lower (s : pystr) : pystr :=
  if is_ascii s then map ascii_lower s else uni_lower U s.

(** [s.strip()] *)
Definition str_strip (s : pystr) : pystr :=
  rev (lstrip char_isspace (rev (lstrip char_isspace s))).
End Unicode.

(** ** hashlib *)

(** A hash function with its digest size. *)
Record digest_fn (size : nat) := {
  digest :> bytes -> bytes;
  digest_size : forall m, length (digest m) = size
}.
Arguments digest {size} d m.
Arguments digest_size {size} d m.

Record hashlib := {
  sha256 : digest_fn 32;
  sha512 : digest_fn 64
}.

Definition xor_bytes (a b : bytes) : bytes := zip_with N.lxor a b.

(** The block-sized key of HMAC (RFC 2104): a key longer than the block is
    hashed first, and the key is then padded with zero octets. *)
Definition hmac_key_block {n} (H : digest_fn n) (block : nat) (key : bytes)
  : bytes :=
  let k := if Nat.ltb block (length key) then H key else key in
  k ++ repeat 0 (block - length k)%nat.

Definition hmac {n} (H : digest_fn n) (block : nat) (key msg : bytes) : bytes :=
  let k0 := hmac_key_block H block key in
  H (map (N.lxor 0x5c) k0 ++ H (map (N.lxor 0x36) k0 ++ msg)).

(** One step of the PBKDF2 block function: the next U and the running xor. *)
Definition pbkdf2_step (prf : bytes -> bytes) (st : bytes * bytes)
  : bytes * bytes :=
  let u := prf (fst st) in (u, xor_bytes (snd st) u).

(** [hashlib.pbkdf2_hmac("sha512", password, salt, iterations)] with the
    default [dklen], the digest size: the single block T_1 of RFC 8018,
    over HMAC-SHA512 (block size 128). *)
Definition pbkdf2_hmac_sha512 (L : hashlib) (password salt : bytes)
    (iterations : N) : bytes :=
  let prf := hmac (sha512 L) 128 password in
  let u1 := prf (salt ++ [0; 0; 0; 1]) in
  snd (N.iter (iterations - 1) (pbkdf2_step prf) (u1, u1)).

(** [hashlib.sha256(data).hexdigest()] *)
Definition sha256_hexdigest (L : hashlib) (data : bytes) : pystr :=
  hexlify (sha256 L data).

(** ** Process state *)

(** The three tables of [create_tables].  [users] has [username] as its
    primary key; the other two are plain row sequences in insertion order. *)
Record tables := {
  users : gmap (list N) (list N);
  questions : list (list N * list N);
  scores : list (list N * Z)
}.

(** What [print] and the prompt of [input] write.  The percentage line is a
    float rendering and is kept symbolic. *)
Inductive out_item :=
  | OutStr (s : pystr)
  | OutPercent (score : Z) (asked : nat).

Record world := {
  db : tables;                (* the tables as [self.conn] sees them *)
  disk : tables;              (* the tables as of the last commit *)
  cursor : list (list N * list N);   (* rows pending in [self.cursor] *)
  faults : list (option (sqlite_class * string));
                              (* storage failures awaiting the next calls *)
  log : list string;          (* records emitted by [logging.error] *)
  stdin : list (list N);      (* lines still to be read by [input] *)
  stdout : list out_item;
  entropy : nat -> N          (* the octets [os.urandom] will hand out *)
}.

Definition set_db (f : tables -> tables) (w : world) : world :=
  {| db := f (db w); disk := disk w; cursor := cursor w; faults := faults w;
     log := log w; stdin := stdin w; stdout := stdout w;
     entropy := entropy w |}.
Definition set_disk (d : tables) (w : world) : world :=
  {| db := db w; disk := d; cursor := cursor w; faults := faults w;
     log := log w; stdin := stdin w; stdout := stdout w;
     entropy := entropy w |}.
Definition set_cursor (c : list (list N * list N)) (w : world) : world :=
  {| db := db w; disk := disk w; cursor := c; faults := faults w;
     log := log w; stdin := stdin w; stdout := stdout w;
     entropy := entropy w |}.
Definition set_faults (f : list (option (sqlite_class * string))) (w : world)
  : world :=
  {| db := db w; disk := disk w; cursor := cursor w; faults := f;
     log := log w; stdin := stdin w; stdout := stdout w;
     entropy := entropy w |}.
Definition set_log (l : list string) (w : world) : world :=
  {| db := db w; disk := disk w; cursor := cursor w; faults := faults w;
     log := l; stdin := stdin w; stdout := stdout w; entropy := entropy w |}.
Definition set_stdin (i : list (list N)) (w : world) : world :=
  {| db := db w; disk := disk w; cursor := cursor w; faults := faults w;
     log := log w; stdin := i; stdout := stdout w; entropy := entropy w |}.
Definition set_stdout (o : list out_item) (w : world) : world :=
  {| db := db w; disk := disk w; cursor := cursor w; faults := faults w;
     log := log w; stdin := stdin w; stdout := o; entropy := entropy w |}.
Definition set_entropy (e : nat -> N) (w : world) : world :=
  {| db := db w; disk := disk w; cursor := cursor w; faults := faults w;
     log := log w; stdin := stdin w; stdout := stdout w; entropy := e |}.

Definition with_users (f : gmap (list N) (list N) -> gmap (list N) (list N))
    (t : tables) : tables :=
  {| users := f (users t); questions := questions t; scores := scores t |}.
Definition with_questions
    (f : list (list N * list N) -> list (list N * list N)) (t : tables)
  : tables :=
  {| users := users t; questions := f (questions t); scores := scores t |}.
Definition with_scores (f : list (list N * Z) -> list (list N * Z))
    (t : tables) : tables :=
  {| users := users t; questions := questions t; scores := f (scores t) |}.

(** ** The monad of methods: state and exceptions *)

Definition M (A : Type) : Type := world -> outcome A * world.

Definition ret {A} (a : A) : M A := fun w => (Return a, w).
Definition raise {A} (e : exn) : M A := fun w => (Raise e, w).
Definition bind {A B} (m : M A) (k : A -> M B) : M B :=
  fun w => match m w with
           | (Return a, w') => k a w'
           | (Raise e, w') => (Raise e, w')
           end.
Definition lift {A} (o : outcome A) : M A := fun w => (o, w).

(** [try: body except ...]: [handler e] is the clause that matches [e], if
    one does. *)
Definition try_except {A} (body : M A) (handler : exn -> option (M A)) : M A :=
  fun w => match body w with
           | (Return a, w') => (Return a, w')
           | (Raise e, w') =>
               match handler e with
               | Some h => h w'
               | None => (Raise e, w')
               end
           end.

Declare Scope method_scope.
Delimit Scope method_scope with method.
Notation "x <- c ;; k" := (bind c (fun x => k))
  (at level 100, c at next level, right associativity) : method_scope.
Notation "c ;; k" := (bind c (fun _ => k))
  (at level 100, right associativity) : method_scope.
Local Open Scope method_scope.

(** ** Collaborators: logging, console, entropy, sqlite3 *)

Definition logging_error (msg : string) : M unit :=
  fun w => (Return tt, set_log (log w ++ [msg]) w).

Definition print (s : pystr) : M unit :=
  fun w => (Return tt, set_stdout (stdout w ++ [OutStr s]) w).

(** [input(prompt)]: writes the prompt, reads one line; end of input raises. *)
Definition input (prompt : pystr) : M pystr :=
  fun w =>
    let w1 := set_stdout (stdout w ++ [OutStr prompt]) w in
    match stdin w with
    | [] => (Raise EOFError, w1)
    | line :: rest => (Return line, set_stdin rest w1)
    end.

(** [os.urandom(n)] *)
Definition os_urandom (n : nat) : M bytes :=
  fun w => (Return (map (entropy w) (seq 0 n)),
            set_entropy (fun i => entropy w (n + i)%nat) w).

(** Every call into the database first meets the storage layer, which may
    fail it. *)
Definition db_call : M unit :=
  fun w => match faults w with
           | [] => (Return tt, w)
           | None :: rest => (Return tt, set_faults rest w)
           | Some (c, msg) :: rest => (Raise (SqliteError c msg), set_faults rest w)
           end.

(** Binding a [str] parameter of a statement encodes it as UTF-8.  A string
    that cannot be encoded makes [cursor.execute] raise
    [UnicodeEncodeError] before the statement runs, and the cursor is left
    without a statement: the rows it held are gone. *)
Definition bind_text (s : pystr) : M unit :=
  fun w => match encode_utf8 s with
           | Return _ => (Return tt, w)
           | Raise e => (Raise e, set_cursor [] w)
           end.


(** [cursor.execute("INSERT INTO users (username, password) VALUES (?, ?)")]:
    the primary key refuses a second row for the same username. *)
Definition execute_insert_user (u r : pystr) : M unit :=
  bind_text u ;;
  bind_text r ;;
  db_call ;;
  fun w => match users (db w) !! u with
           | Some _ =>
               (Raise (SqliteError IntegrityError
                         "UNIQUE constraint failed: users.username"), w)
           | None =>
               (Return tt, set_cursor [] (set_db (with_users (insert u r)) w))
           end.

(** [cursor.execute("INSERT INTO scores (username, score) VALUES (?, ?)")];
    SQLite does not enforce the foreign key by default. *)
Definition execute_insert_score (u : pystr) (s : Z) : M unit :=
  bind_text u ;;
  db_call ;;
  fun w => (Return tt,
            set_cursor [] (set_db (with_scores (fun l => l ++ [(u, s)])) w)).

(** [cursor.execute("SELECT * FROM users WHERE username=?")] *)
Definition execute_select_user (u : pystr) : M unit :=
  bind_text u ;;
  db_call ;;
  fun w => (Return tt,
            set_cursor match users (db w) !! u with
                       | Some r => [(u, r)]
                       | None => []
                       end w).

(** [cursor.execute("SELECT question, answer FROM questions")] *)
Definition execute_select_questions : M unit :=
  db_call ;;
  fun w => (Return tt, set_cursor (questions (db w)) w).

Definition fetchone : M (option (list N * list N)) :=
  db_call ;;
  fun w => match cursor w with
           | [] => (Return None, w)
           | row :: rest => (Return (Some row), set_cursor rest w)
           end.

Definition fetchall : M (list (list N * list N)) :=
  db_call ;;
  fun w => (Return (cursor w), set_cursor [] w).

Definition commit : M unit :=
  db_call ;;
  fun w => (Return tt, set_disk (db w) w).

(** ** The methods of [QuizGame] *)

Section QuizGame.
Variable L : hashlib.
Variable U : unicode_db.


(** [register_user(self, username, password)] *)
Definition register_user (username password : pystr) : M bool :=
  if Nat.eqb (length username) 0 || Nat.eqb (length password) 0 then
    logging_error "Username or password cannot be empty." ;;
    ret false
  else if Nat.ltb (length username) 3 || Nat.ltb (length password) 8 then
    logging_error
      "Username must be at least 3 characters long, and password must be at least 8 characters long." ;;
    ret false
  else if negb (str_isalnum U username) || negb (str_isalnum U password) then
    logging_error
      "Username and password must contain only alphanumeric characters." ;;
    ret false
  else
    rnd <- os_urandom 60 ;;
    salt <- lift (encode_ascii (sha256_hexdigest L rnd)) ;;
    pw <- lift (encode_utf8 password) ;;
    let pwdhash := pbkdf2_hmac_sha512 L pw salt 100000 in
    let pwdhash := hexlify pwdhash in
    try_except
      (record <- lift (decode_ascii (salt ++ pwdhash)) ;;
       execute_insert_user username record ;;
       commit ;;
       ret true)
      (fun e => match e with
                | SqliteError IntegrityError _ =>
                    Some (logging_error
                            "Username already exists. Please choose a different username." ;;
                          ret false)
                | _ => None
                end).

(** [login_user(self, username, password)] *)
Definition login_user (username password : pystr) : M bool :=
  try_except
    (execute_select_user username ;;
     user <- fetchone ;;
     match user with
     | Some (_, stored) =>
         let salt := take 64 stored in
         let stored_password := drop 64 stored in
         pw <- lift (encode_utf8 password) ;;
         salt_bytes <- lift (encode_ascii salt) ;;
         let pwdhash := pbkdf2_hmac_sha512 L pw salt_bytes 100000 in
         pwdhash <- lift (decode_ascii (hexlify pwdhash)) ;;
         ret (bool_decide (pwdhash = stored_password))
     | None => ret false
     end)
    (fun e => match e with
              | SqliteError _ msg =>
                  Some (logging_error (String.append "Error logging in user: " msg) ;;
                        ret false)
              | _ => None
              end).

(** [ask_question(self, question, correct_answer)] *)
Definition ask_question (question correct_answer : pystr) : M Z :=
  line <- input question ;;
  let user_answer := str_strip U (str_lower U line) in
  if bool_decide (user_answer = correct_answer) then
    print (py "Correct!") ;;
    ret 1%Z
  else
    print (py "Incorrect!") ;;
    ret 0%Z.

(** [sum(self.ask_question(q, a) for q, a in questions)], from [acc]. *)
Fixpoint sum_asks (qs : list (list N * list N)) (acc : Z) : M Z :=
  match qs with
  | [] => ret acc
  | (question, answer) :: qs' =>
      r <- ask_question question answer ;;
      sum_asks qs' (acc + r)%Z
  end.

(** [str(n)] for an [int]. *)
Definition str_of_int (n : Z) : pystr := py (NilZero.string_of_int (Z.to_int n)).

(** [print(f"You got {str(score / len(questions) * 100)}%.")]: the true
    division raises on a zero divisor before anything is printed. *)
Definition print_percent (score : Z) (asked : nat) : M unit :=
  if Nat.eqb asked 0 then raise ZeroDivisionError
  else fun w => (Return tt, set_stdout (stdout w ++ [OutPercent score asked]) w).

(** [play(self, username)] *)
Definition play (username : pystr) : M unit :=
  print (py "Welcome to Digital_Odyssey!") ;;
  execute_select_questions ;;
  qs <- fetchall ;;
  score <- sum_asks qs 0%Z ;;
  execute_insert_score username score ;;
  commit ;;
  print (py "You got " ++ str_of_int score ++ py " questions correct!") ;;
  print_percent score (length qs).

End QuizGame.

(** The questions seeded by the program's entry point. *)
Definition seed_questions : list (list N * list N) :=
  [ (py "What does CPU stand for? ", py "central processing unit");
    (py "What does GPU stand for? ", py "graphics processing unit");
    (py "What does RAM stand for? ", py "random access memory");
    (py "What does PSU stand for? ", py "power supply");
    (py "What does SSD stand for? ", py "solid state drive");
    (py "What does HDD stand for? ", py "hard disk drive");
    (py "What does USB stand for? ", py "universal serial bus") ].

(** ** Specification vocabulary *)

(** The validation constraints of registration, in the words of the
    specification. *)
Definition valid_credentials (U : unicode_db) (username password : pystr)
  : Prop :=
  username <> [] /\ password <> [] /\
  (3 <= length username)%nat /\ (8 <= length password)%nat /\
  Forall (fun c => char_isalnum U c = true) username /\
  Forall (fun c => char_isalnum U c = true) password.

(** The credentials break a validation constraint, in the words of the
    specification. *)
Definition invalid_credentials (U : unicode_db) (username password : pystr)
  : Prop :=
  username = [] \/ password = [] \/
  (length username < 3)%nat \/ (length password < 8)%nat \/
  Exists (fun c => char_isalnum U c = false) username \/
  Exists (fun c => char_isalnum U c = false) password.

(** The salt a registration draws in state [w]. *)
Definition fresh_salt (L : hashlib) (w : world) : pystr :=
  sha256_hexdigest L (map (entropy w) (seq 0 60)).

(** The hex-encoded derived key for an encoded password and a salt. *)
Definition derived_key (L : hashlib) (pw salt : bytes) : pystr :=
  hexlify (pbkdf2_hmac_sha512 L pw salt 100000).

(** The state a successful registration leaves behind. *)
Definition after_register (L : hashlib) (username pw : bytes) (w : world)
  : world :=
  let record := fresh_salt L w ++ derived_key L pw (fresh_salt L w) in
  let t := with_users (insert username record) (db w) in
  {| db := t; disk := t; cursor := []; faults := faults w; log := log w;
     stdin := stdin w; stdout := stdout w;
     entropy := fun i => entropy w (60 + i)%nat |}.

(** The answer normalisation of [ask_question]. *)
Definition normalize (U : unicode_db) (s : pystr) : pystr :=
  str_strip U (str_lower U s).

(** The number of lines that answer their question correctly. *)
Fixpoint count_correct (U : unicode_db) (qs : list (list N * list N))
    (lines : list (list N)) : Z :=
  match qs, lines with
  | (_, a) :: qs', l :: lines' =>
      ((if bool_decide (normalize U l = a) then 1 else 0)
       + count_correct U qs' lines')%Z
  | _, _ => 0%Z
  end.

(** The verdict of [login_user] on a stored record. *)
Definition verdict (L : hashlib) (password record : pystr) : outcome bool :=
  obind (encode_utf8 password) (fun pw =>
  obind (encode_ascii (take 64 record)) (fun salt =>
  Return (bool_decide (derived_key L pw salt = drop 64 record)))).

Definition empty_tables : tables :=
  {| users := ∅; questions := []; scores := [] |}.

(** The process state after [__init__] on a new database file. *)
Definition fresh_world (tape : nat -> N) (lines : list (list N)) : world :=
  {| db := empty_tables; disk := empty_tables; cursor := []; faults := [];
     log := []; stdin := lines; stdout := []; entropy := tape |}.

(** ** Stand-ins for evaluation *)

(** A digest of the right size that xors its input together: enough to run
    the methods on concrete inputs. *)
Definition xor_digest (n : nat) : digest_fn n :=
  {| digest := fun m => repeat (fold_right N.lxor 0 m) n;
     digest_size := fun m => repeat_length (fold_right N.lxor 0 m) n |}.

Definition xor_hashlib : hashlib :=
  {| sha256 := xor_digest 32; sha512 := xor_digest 64 |}.

(** A character database with nothing alphanumeric, blank or cased beyond
    ASCII; on ASCII strings every database gives the same answers. *)
Definition ascii_db : unicode_db :=
  {| uni_isalnum := fun _ => false;
     uni_isspace := fun _ => false;
     uni_lower := fun s => s |}.

Definition zero_tape : nat -> N := fun _ => 0.



(** An entropy source whose first octet is 1 and all others 0: the first
    two draws of 60 octets differ. *)
Definition first_octet_tape : nat -> N := fun i => if Nat.eqb i 0 then 1 else 0.

(** [w'] has the database, committed state and pending storage faults of
    [w]: only the console moved. *)
Definition same_store (w w' : world) : Prop :=
  db w' = db w /\ disk w' = disk w /\ faults w' = faults w.

(** The state once the seven seed questions are stored and the given
    answer lines wait on the console. *)
Definition seeded_world (lines : list (list N)) : world :=
  set_db (with_questions (fun _ => seed_questions)) (fresh_world zero_tape lines).

(** ** The entry point *)


Section Main.
Variable L : hashlib.
Variable U : unicode_db.
Variable tty : option (outcome (list N)).


End Main.

(** ASCII and already in lower case. *)
Definition lowered (c : N) : Prop := (c <? 0x80) = true /\ ascii_lower c = c.




(** ** Codec and hashing facts *)

Lemma hexdigit_lt (d : N) : d < 16 -> hexdigit d < 0x80.
Proof.
  intros Hd. unfold hexdigit. destruct (d <? 10) eqn:E; lia.
Qed.

Lemma hexdigit_is_hexchar (d : N) : d < 16 -> is_hexchar (hexdigit d) = true.
Proof.
  intros Hd. unfold hexdigit, is_hexchar.
  destruct (d <? 10) eqn:E.
  - apply N.ltb_lt in E. apply orb_true_iff. left.
    apply andb_true_iff. split; apply N.leb_le; lia.
  - apply N.ltb_ge in E. apply orb_true_iff. right.
    apply andb_true_iff. split; apply N.leb_le; lia.
Qed.

Lemma length_hexlify (b : bytes) : length (hexlify b) = (2 * length b)%nat.
Proof.
  induction b as [|x b IH]; simpl; [reflexivity|]. rewrite IH. lia.
Qed.

Lemma hexlify_is_ascii (b : bytes) : forallb (fun c => c <? 0x80) (hexlify b) = true.
Proof.
  induction b as [|x b IH]; simpl; [reflexivity|].
  rewrite IH.
  assert (H1 : (x / 16) mod 16 < 16) by (apply N.mod_upper_bound; lia).
  assert (H2 : x mod 16 < 16) by (apply N.mod_upper_bound; lia).
  apply hexdigit_lt in H1, H2.
  apply N.ltb_lt in H1, H2. rewrite H1, H2. reflexivity.
Qed.

Lemma hexlify_is_hex (b : bytes) : forallb is_hexchar (hexlify b) = true.
Proof.
  induction b as [|x b IH]; simpl; [reflexivity|].
  rewrite IH, !hexdigit_is_hexchar; [reflexivity| |];
    apply N.mod_upper_bound; lia.
Qed.

Lemma forallb_ascii_app (a b : bytes) :
  forallb (fun c => c <? 0x80) (a ++ b)
  = forallb (fun c => c <? 0x80) a && forallb (fun c => c <? 0x80) b.
Proof. apply forallb_app. Qed.

Lemma encode_ascii_hexlify (b : bytes) : encode_ascii (hexlify b) = Return (hexlify b).
Proof. unfold encode_ascii. rewrite hexlify_is_ascii. reflexivity. Qed.

Lemma decode_ascii_hexlify (b : bytes) : decode_ascii (hexlify b) = Return (hexlify b).
Proof. unfold decode_ascii. rewrite hexlify_is_ascii. reflexivity. Qed.

Lemma decode_ascii_hexlify_app (a b : bytes) :
  decode_ascii (hexlify a ++ hexlify b) = Return (hexlify a ++ hexlify b).
Proof.
  unfold decode_ascii. rewrite forallb_ascii_app, !hexlify_is_ascii. reflexivity.
Qed.

Lemma length_sha256_hexdigest (L : hashlib) (m : bytes) :
  length (sha256_hexdigest L m) = 64%nat.
Proof.
  unfold sha256_hexdigest. rewrite length_hexlify, digest_size. reflexivity.
Qed.

Lemma length_hmac {n} (H : digest_fn n) (block : nat) (key msg : bytes) :
  length (hmac H block key msg) = n.
Proof. unfold hmac. apply digest_size. Qed.

Lemma length_pbkdf2 (L : hashlib) (pw salt : bytes) (c : N) :
  length (pbkdf2_hmac_sha512 L pw salt c) = 64%nat.
Proof.
  unfold pbkdf2_hmac_sha512.
  set (prf := hmac (sha512 L) 128 pw).
  set (u1 := prf (salt ++ [0; 0; 0; 1])).
  apply (N.iter_invariant (c - 1) _ (pbkdf2_step prf)
           (fun st => length (fst st) = 64%nat /\ length (snd st) = 64%nat)).
  - intros [u t] [Hu Ht]. simpl in *. split.
    + apply length_hmac.
    + unfold xor_bytes. rewrite length_zip_with, Ht.
      unfold prf. rewrite length_hmac. reflexivity.
  - simpl. split; apply length_hmac.
Qed.

Lemma length_derived_key (L : hashlib) (pw salt : bytes) :
  length (derived_key L pw salt) = 128%nat.
Proof.
  unfold derived_key. rewrite length_hexlify, length_pbkdf2. reflexivity.
Qed.

Lemma alnum_not_surrogate (U : unicode_db) (c : N) :
  char_isalnum U c = true -> is_surrogate c = false.
Proof.
  unfold char_isalnum, is_surrogate. intros H.
  destruct (c <? 0x80) eqn:E.
  - apply N.ltb_lt in E. apply andb_false_iff. left. apply N.leb_gt. lia.
  - apply andb_true_iff in H as [H _]. apply negb_true_iff in H. exact H.
Qed.

Lemma utf8_char_total (c : N) :
  is_surrogate c = false -> exists b, utf8_char c = Return b.
Proof.
  intros H. unfold utf8_char. rewrite H.
  destruct (c <? 0x80); [eauto|].
  destruct (c <? 0x800); [eauto|].
  destruct (c <? 0x10000); eauto.
Qed.

Lemma encode_utf8_alnum (U : unicode_db) (s : pystr) :
  Forall (fun c => char_isalnum U c = true) s ->
  exists b, encode_utf8 s = Return b.
Proof.
  induction 1 as [|c s Hc _ [bs IH]]; simpl.
  - eauto.
  - destruct (utf8_char_total c (alnum_not_surrogate U c Hc)) as [b Hb].
    rewrite Hb, IH. simpl. eauto.
Qed.

Lemma str_isalnum_true (U : unicode_db) (s : pystr) :
  s <> [] -> Forall (fun c => char_isalnum U c = true) s ->
  str_isalnum U s = true.
Proof.
  intros Hne Hall. unfold str_isalnum.
  destruct s as [|c s]; [congruence|]. simpl negb.
  apply forallb_forall. intros x Hx.
  rewrite Forall_forall in Hall. apply Hall.
  apply list_elem_of_In. exact Hx.
Qed.

(** ** Running the collaborators *)

Lemma db_call_quiet (w : world) : faults w = [] -> db_call w = (Return tt, w).
Proof. intros H. unfold db_call. rewrite H. reflexivity. Qed.

Lemma validation_passes (U : unicode_db) (u p : pystr) :
  valid_credentials U u p ->
  Nat.eqb (length u) 0 || Nat.eqb (length p) 0 = false /\
  Nat.ltb (length u) 3 || Nat.ltb (length p) 8 = false /\
  negb (str_isalnum U u) || negb (str_isalnum U p) = false.
Proof.
  intros (Hu & Hp & Hlu & Hlp & Hau & Hap).
  repeat split.
  - apply orb_false_iff. split; apply Nat.eqb_neq; lia.
  - apply orb_false_iff. split; apply Nat.ltb_ge; lia.
  - rewrite !str_isalnum_true by assumption. reflexivity.
Qed.


(** ** HMAC pads its key with zero octets *)






Opaque pbkdf2_hmac_sha512.

(** ** Running the methods when the storage layer is healthy *)

Lemma bind_text_ok (s b : list N) (w : world) :
  encode_utf8 s = Return b -> bind_text s w = (Return tt, w).
Proof. intros H. unfold bind_text. rewrite H. reflexivity. Qed.

Lemma encode_utf8_ascii (s : pystr) :
  forallb (fun c => c <? 0x80) s = true -> encode_utf8 s = Return s.
Proof.
  induction s as [|c s IH]; simpl; [reflexivity|].
  intros H. apply andb_true_iff in H as [Hc Hs].
  unfold utf8_char. rewrite Hc. simpl. rewrite (IH Hs). reflexivity.
Qed.

(** The record [register_user] writes is made of hex digits and can always
    be bound. *)
Lemma bind_text_record (a b : list N) (w : world) :
  bind_text (hexlify a ++ hexlify b) w = (Return tt, w).
Proof.
  apply (bind_text_ok _ (hexlify a ++ hexlify b)). apply encode_utf8_ascii.
  rewrite forallb_ascii_app, !hexlify_is_ascii. reflexivity.
Qed.

Lemma str_isalnum_inv (U : unicode_db) (s : pystr) :
  str_isalnum U s = true ->
  s <> [] /\ Forall (fun c => char_isalnum U c = true) s.
Proof.
  unfold str_isalnum. intros H. apply andb_true_iff in H as [Hne Hall].
  split.
  - intros ->. discriminate Hne.
  - apply Forall_forall. intros c Hc. rewrite forallb_forall in Hall.
    apply Hall. apply list_elem_of_In. exact Hc.
Qed.


Lemma register_user_valid (L : hashlib) (U : unicode_db) (u p pw : list N)
    (w : world) :
  valid_credentials U u p ->
  encode_utf8 p = Return pw ->
  faults w = [] ->
  users (db w) !! u = None ->
  register_user L U u p w = (Return true, after_register L u pw w).
Proof.
  intros Hv Hpw Hf Hu.
  destruct (validation_passes U u p Hv) as (E1 & E2 & E3).
  unfold register_user. rewrite E1, E2, E3.
  unfold bind at 1. unfold os_urandom.
  unfold bind at 1. unfold lift at 1, sha256_hexdigest.
  rewrite encode_ascii_hexlify.
  unfold bind at 1. unfold lift at 1. rewrite Hpw.
  unfold try_except, bind, lift.
  rewrite decode_ascii_hexlify_app.
  destruct (encode_utf8_alnum U u) as [ub Hub]; [apply Hv|].
  unfold execute_insert_user, bind.
  rewrite (bind_text_ok u ub _ Hub), bind_text_record.
  rewrite db_call_quiet by exact Hf.
  cbn [db set_entropy]. rewrite Hu.
  unfold commit, bind. rewrite db_call_quiet by exact Hf.
  unfold after_register, derived_key, fresh_salt, sha256_hexdigest, ret.
  reflexivity.
Qed.


Lemma utf8_char_raises (c : N) (e : exn) :
  utf8_char c = Raise e -> e = UnicodeEncodeError.
Proof.
  unfold utf8_char. intros H.
  destruct (c <? 0x80); [discriminate|].
  destruct (c <? 0x800); [discriminate|].
  destruct (c <? 0x10000); [|discriminate].
  destruct (is_surrogate c); congruence.
Qed.

Lemma encode_utf8_raises (s : pystr) (e : exn) :
  encode_utf8 s = Raise e -> e = UnicodeEncodeError.
Proof.
  induction s as [|c s IH]; simpl; [discriminate|].
  destruct (utf8_char c) as [b|e'] eqn:Ec; simpl.
  - destruct (encode_utf8 s) as [bs|e'']; simpl; [discriminate|].
    intros H. apply IH. congruence.
  - intros H. apply (utf8_char_raises c). congruence.
Qed.

Lemma bind_text_fails (s : list N) (e : exn) (w : world) :
  encode_utf8 s = Raise e ->
  bind_text s w = (Raise UnicodeEncodeError, set_cursor [] w).
Proof.
  intros H. unfold bind_text. rewrite H.
  rewrite (encode_utf8_raises s e H). reflexivity.
Qed.

Lemma login_user_present (L : hashlib) (u ub p r : list N) (w : world) :
  encode_utf8 u = Return ub ->
  faults w = [] ->
  users (db w) !! u = Some r ->
  login_user L u p w = (verdict L p r, set_cursor [] w).
Proof.
  intros Hub Hf Hu. unfold login_user, try_except, execute_select_user, fetchone.
  unfold bind. rewrite (bind_text_ok u ub w Hub).
  rewrite db_call_quiet by exact Hf.
  rewrite Hu. rewrite db_call_quiet by exact Hf.
  cbn [cursor set_cursor faults].
  unfold verdict, derived_key, lift, ret.
  destruct (encode_utf8 p) as [pw|e] eqn:Ep; cbn [obind].
  2:{ apply encode_utf8_raises in Ep. subst e. reflexivity. }
  destruct (encode_ascii (take 64 r)) as [sb|e] eqn:Es; cbn [obind].
  2:{ unfold encode_ascii in Es.
      destruct (forallb _ _); inversion Es. reflexivity. }
  rewrite decode_ascii_hexlify. reflexivity.
Qed.

(** ** Registration followed by login *)





(** ** Login *)









(** ** Registration, whatever the storage layer does *)

(** What a registration that returned [True] must have done. *)
Lemma register_user_true_inv (L : hashlib) (U : unicode_db) (u p : list N)
    (w w' : world) :
  register_user L U u p w = (Return true, w') ->
  exists pw,
    encode_utf8 p = Return pw /\
    users (db w) !! u = None /\
    db w' = with_users
              (insert u (fresh_salt L w ++ derived_key L pw (fresh_salt L w)))
              (db w) /\
    disk w' = db w' /\
    entropy w' = (fun i => entropy w (60 + i)%nat).
Proof.
  intros H. unfold register_user in H.
  destruct (Nat.eqb (length u) 0 || Nat.eqb (length p) 0); [discriminate H|].
  destruct (Nat.ltb (length u) 3 || Nat.ltb (length p) 8); [discriminate H|].
  destruct (negb (str_isalnum U u) || negb (str_isalnum U p)) eqn:E3;
    [discriminate H|].
  apply orb_false_iff in E3 as [E3u _]. apply negb_false_iff in E3u.
  destruct (str_isalnum_inv U u E3u) as [_ Hau].
  destruct (encode_utf8_alnum U u Hau) as [ub Hub].
  unfold bind at 1 in H. unfold os_urandom in H.
  unfold bind at 1 in H. unfold lift at 1, sha256_hexdigest in H.
  rewrite encode_ascii_hexlify in H.
  unfold bind at 1 in H. unfold lift at 1 in H.
  destruct (encode_utf8 p) as [pw|e] eqn:Hpw; [|discriminate H].
  exists pw. split; [reflexivity|].
  unfold try_except, bind, lift in H.
  rewrite decode_ascii_hexlify_app in H.
  unfold execute_insert_user, bind in H.
  rewrite (bind_text_ok u ub _ Hub), bind_text_record in H.
  unfold fresh_salt, derived_key, sha256_hexdigest.
  set (record := hexlify _ ++ hexlify _) in *. clearbody record.
  unfold commit, bind, db_call in H.
  cbn [faults set_entropy db] in H.
  destruct (users (db w) !! u) as [r|] eqn:Hu;
    destruct (faults w) as [|[[c msg]|] [|[[c' msg']|] rest]] eqn:Hf;
    try destruct c; try destruct c'; cbn in H;
    repeat (first [rewrite Hu in H | rewrite Hf in H]; cbn in H);
    try discriminate H;
    apply (f_equal snd) in H; cbn [snd] in H; subst w'; auto.
Qed.

(** ** Validation failures *)

Lemma str_isalnum_false (U : unicode_db) (s : pystr) :
  Exists (fun c => char_isalnum U c = false) s -> str_isalnum U s = false.
Proof.
  intros H. unfold str_isalnum. apply andb_false_iff. right.
  apply not_true_is_false. intros Hall.
  rewrite forallb_forall in Hall.
  apply Exists_exists in H as (c & Hin & Hc).
  apply list_elem_of_In in Hin. specialize (Hall c Hin). congruence.
Qed.

(** C3: credentials that break any validation constraint (an empty
    username or password, a username shorter than 3, a password shorter
    than 8, a non-alphanumeric character in either) make [register_user]
    return [False]; it emits one diagnostic and changes nothing else: the
    credential store, as seen by the connection and on disk, is as before. *)
Theorem register_rejects_invalid (L : hashlib) (U : unicode_db) (w : world)
    (u p : list N) :
  invalid_credentials U u p ->
  exists msg,
    register_user L U u p w = (Return false, set_log (log w ++ [msg]) w) /\
    db (set_log (log w ++ [msg]) w) = db w /\
    disk (set_log (log w ++ [msg]) w) = disk w.
Proof.
  intros Hinv. unfold register_user.
  destruct (Nat.eqb (length u) 0 || Nat.eqb (length p) 0) eqn:E1;
    [eexists; repeat split|].
  destruct (Nat.ltb (length u) 3 || Nat.ltb (length p) 8) eqn:E2;
    [eexists; repeat split|].
  destruct (negb (str_isalnum U u) || negb (str_isalnum U p)) eqn:E3;
    [eexists; repeat split|].
  exfalso.
  apply orb_false_iff in E1 as [E1u E1p].
  apply orb_false_iff in E2 as [E2u E2p].
  apply orb_false_iff in E3 as [E3u E3p].
  apply Nat.eqb_neq in E1u, E1p. apply Nat.ltb_ge in E2u, E2p.
  apply negb_false_iff in E3u, E3p.
  destruct Hinv as [H|[H|[H|[H|[H|H]]]]].
  - subst u. simpl in E1u. lia.
  - subst p. simpl in E1p. lia.
  - lia.
  - lia.
  - rewrite (str_isalnum_false U u H) in E3u. discriminate.
  - rewrite (str_isalnum_false U p H) in E3p. discriminate.
Qed.

Lemma register_rejects_invalid_witness :
  exists msg,
    register_user xor_hashlib ascii_db (py "valid user") (py "password1")
      (fresh_world zero_tape [])
    = (Return false, set_log (log (fresh_world zero_tape []) ++ [msg])
                       (fresh_world zero_tape [])) /\
    db (set_log (log (fresh_world zero_tape []) ++ [msg])
          (fresh_world zero_tape [])) = db (fresh_world zero_tape []) /\
    disk (set_log (log (fresh_world zero_tape []) ++ [msg])
            (fresh_world zero_tape [])) = disk (fresh_world zero_tape []).
Proof.
  apply register_rejects_invalid.
  unfold invalid_credentials. right. right. right. right. left.
  apply Exists_exists. exists 32. split; [|reflexivity].
  apply list_elem_of_In. simpl. tauto.
Defined.

(** ** Uniqueness of usernames *)



(** ** Storage failures *)

Lemma register_user_storage_failure (L : hashlib) (U : unicode_db)
    (u p pw : list N) (w : world) (c : sqlite_class) (msg : string)
    (rest : list (option (sqlite_class * string))) :
  valid_credentials U u p ->
  encode_utf8 p = Return pw ->
  faults w = Some (c, msg) :: rest ->
  c <> IntegrityError ->
  register_user L U u p w
  = (Raise (SqliteError c msg),
     set_faults rest (set_entropy (fun i => entropy w (60 + i)%nat) w)).
Proof.
  intros Hv Hpw Hf Hc.
  destruct (validation_passes U u p Hv) as (E1 & E2 & E3).
  unfold register_user. rewrite E1, E2, E3.
  unfold bind at 1. unfold os_urandom.
  unfold bind at 1. unfold lift at 1, sha256_hexdigest.
  rewrite encode_ascii_hexlify.
  unfold bind at 1. unfold lift at 1. rewrite Hpw.
  unfold try_except, bind, lift.
  rewrite decode_ascii_hexlify_app.
  destruct (encode_utf8_alnum U u) as [ub Hub]; [apply Hv|].
  unfold execute_insert_user, bind.
  rewrite (bind_text_ok u ub _ Hub), bind_text_record.
  unfold db_call.
  cbn [faults set_entropy]. rewrite Hf.
  destruct c; try reflexivity. congruence.
Qed.

Lemma login_user_storage_failure (L : hashlib) (u ub p : list N) (w : world)
    (c : sqlite_class) (msg : string)
    (rest : list (option (sqlite_class * string))) :
  encode_utf8 u = Return ub ->
  faults w = Some (c, msg) :: rest ->
  login_user L u p w
  = (Return false,
     set_log (log w ++ [String.append "Error logging in user: " msg])
       (set_faults rest w)).
Proof.
  intros Hub Hf. unfold login_user, try_except, execute_select_user, bind.
  rewrite (bind_text_ok u ub w Hub). unfold db_call.
  rewrite Hf. reflexivity.
Qed.

(** C5 fails on [register_user]: when the storage layer fails the INSERT
    with an [OperationalError] (a locked or unwritable database),
    [register_user("alice", "password1")] lets the exception escape
    instead of returning [False]; [login_user], met by the same failure,
    logs it and returns [False]. *)
Theorem register_user_propagates_storage_failure :
  forall (L : hashlib) (U : unicode_db) (tape : nat -> N) (msg : string),
    let w := set_faults [Some (OperationalError, msg)] (fresh_world tape []) in
    fst (register_user L U (py "alice") (py "password1") w)
    = Raise (SqliteError OperationalError msg) /\
    login_user L (py "alice") (py "password1") w
    = (Return false,
       set_log [String.append "Error logging in user: " msg]
         (fresh_world tape [])).
Proof.
  intros L U tape msg w. split.
  - rewrite (register_user_storage_failure L U (py "alice") (py "password1")
               (py "password1") w OperationalError msg []);
      [reflexivity | | reflexivity | reflexivity | discriminate].
    unfold valid_credentials. repeat split; try discriminate; simpl; try lia;
      repeat constructor.
  - rewrite (login_user_storage_failure L (py "alice") (py "alice")
               (py "password1") w OperationalError msg []); reflexivity.
Qed.

(** ** The credential record *)

(** C6: after every successful registration the record stored for the
    user is one string: 64 hex characters of salt, at once followed by the
    hex-encoded PBKDF2-HMAC-SHA512 key derived from the password and that
    salt, 128 hex characters; its length is 192 whatever the inputs. *)
Theorem stored_record_format (L : hashlib) (U : unicode_db) (u p : list N)
    (w w' : world) :
  register_user L U u p w = (Return true, w') ->
  exists salt key pw,
    users (db w') !! u = Some (salt ++ key) /\
    users (disk w') !! u = Some (salt ++ key) /\
    length salt = 64%nat /\ forallb is_hexchar salt = true /\
    encode_utf8 p = Return pw /\
    key = hexlify (pbkdf2_hmac_sha512 L pw salt 100000) /\
    length key = 128%nat /\ forallb is_hexchar key = true /\
    length (salt ++ key) = 192%nat.
Proof.
  intros H.
  destruct (register_user_true_inv L U u p w w' H)
    as (pw & Hpw & _ & Hdb & Hdisk & _).
  exists (fresh_salt L w), (derived_key L pw (fresh_salt L w)), pw.
  assert (Hl : users (db w') !! u
               = Some (fresh_salt L w ++ derived_key L pw (fresh_salt L w))).
  { rewrite Hdb. cbn [users with_users]. apply lookup_insert_eq. }
  split; [exact Hl|]. split; [rewrite Hdisk; exact Hl|].
  split; [apply length_sha256_hexdigest|].
  split; [apply hexlify_is_hex|].
  split; [exact Hpw|]. split; [reflexivity|].
  split; [apply length_derived_key|].
  split; [apply hexlify_is_hex|].
  rewrite length_app, length_derived_key.
  unfold fresh_salt. rewrite length_sha256_hexdigest. reflexivity.
Qed.

Lemma stored_record_format_witness :
  exists salt key pw,
    users (db (after_register xor_hashlib (py "alice") (py "password1")
                 (fresh_world zero_tape []))) !! py "alice"
    = Some (salt ++ key) /\
    users (disk (after_register xor_hashlib (py "alice") (py "password1")
                   (fresh_world zero_tape []))) !! py "alice"
    = Some (salt ++ key) /\
    length salt = 64%nat /\ forallb is_hexchar salt = true /\
    encode_utf8 (py "password1") = Return pw /\
    key = hexlify (pbkdf2_hmac_sha512 xor_hashlib pw salt 100000) /\
    length key = 128%nat /\ forallb is_hexchar key = true /\
    length (salt ++ key) = 192%nat.
Proof.
  apply (stored_record_format xor_hashlib ascii_db (py "alice") (py "password1")
           (fresh_world zero_tape [])).
  apply register_user_valid.
  - unfold valid_credentials. repeat split; try discriminate; simpl; try lia;
      repeat constructor.
  - reflexivity.
  - reflexivity.
  - reflexivity.
Defined.

(** ** Salts *)

(** C8: two successful registrations in a row, of different usernames with
    the same password.  Each draws its own 60 octets of entropy and takes
    the hex SHA-256 digest of them as its salt, the first 64 characters of
    the record it stores; whenever the two salts so generated differ, the
    two stored records differ. *)
Theorem records_differ_with_salts (L : hashlib) (U : unicode_db)
    (u1 u2 p : list N) (w w1 w2 : world) :
  u1 <> u2 ->
  register_user L U u1 p w = (Return true, w1) ->
  register_user L U u2 p w1 = (Return true, w2) ->
  hexlify (sha256 L (map (entropy w) (seq 0 60)))
  <> hexlify (sha256 L (map (entropy w) (seq 60 60))) ->
  exists r1 r2,
    users (db w2) !! u1 = Some r1 /\
    users (db w2) !! u2 = Some r2 /\
    take 64 r1 = hexlify (sha256 L (map (entropy w) (seq 0 60))) /\
    take 64 r2 = hexlify (sha256 L (map (entropy w) (seq 60 60))) /\
    r1 <> r2.
Proof.
  intros Hne H1 H2 Hsalts.
  destruct (register_user_true_inv L U u1 p w w1 H1)
    as (pw & Hpw & _ & Hdb1 & _ & Hent).
  destruct (register_user_true_inv L U u2 p w1 w2 H2)
    as (pw' & Hpw' & _ & Hdb2 & _ & _).
  assert (pw' = pw) by congruence. subst pw'.
  assert (Hs2 : fresh_salt L w1 = hexlify (sha256 L (map (entropy w) (seq 60 60)))).
  { unfold fresh_salt, sha256_hexdigest. rewrite Hent. reflexivity. }
  assert (Hs1 : fresh_salt L w = hexlify (sha256 L (map (entropy w) (seq 0 60))))
    by reflexivity.
  set (s1 := fresh_salt L w) in *. set (s2 := fresh_salt L w1) in *.
  assert (Hl1 : length s1 = 64%nat) by apply length_sha256_hexdigest.
  assert (Hl2 : length s2 = 64%nat) by apply length_sha256_hexdigest.
  exists (s1 ++ derived_key L pw s1), (s2 ++ derived_key L pw s2).
  rewrite !take_app_length' by congruence.
  split.
  { rewrite Hdb2, Hdb1. cbn [users with_users].
    rewrite lookup_insert_ne by congruence. apply lookup_insert_eq. }
  split.
  { rewrite Hdb2. cbn [users with_users]. apply lookup_insert_eq. }
  split; [exact Hs1|]. split; [exact Hs2|].
  intros Hr. apply Hsalts. rewrite <- Hs1, <- Hs2.
  apply app_inj_1 in Hr as [Hr _]; [exact Hr | congruence].
Qed.

Lemma records_differ_with_salts_witness :
  exists r1 r2,
    users (db (after_register xor_hashlib (py "bob") (py "password1")
                 (after_register xor_hashlib (py "alice") (py "password1")
                    (fresh_world first_octet_tape [])))) !! py "alice" = Some r1 /\
    users (db (after_register xor_hashlib (py "bob") (py "password1")
                 (after_register xor_hashlib (py "alice") (py "password1")
                    (fresh_world first_octet_tape [])))) !! py "bob" = Some r2 /\
    take 64 r1
    = hexlify (sha256 xor_hashlib
                 (map (entropy (fresh_world first_octet_tape [])) (seq 0 60))) /\
    take 64 r2
    = hexlify (sha256 xor_hashlib
                 (map (entropy (fresh_world first_octet_tape [])) (seq 60 60))) /\
    r1 <> r2.
Proof.
  apply (records_differ_with_salts xor_hashlib ascii_db (py "alice") (py "bob")
           (py "password1") (fresh_world first_octet_tape [])
           (after_register xor_hashlib (py "alice") (py "password1")
              (fresh_world first_octet_tape []))).
  - discriminate.
  - apply register_user_valid.
    + unfold valid_credentials. repeat split; try discriminate; simpl; try lia;
        repeat constructor.
    + reflexivity.
    + reflexivity.
    + reflexivity.
  - apply register_user_valid.
    + unfold valid_credentials. repeat split; try discriminate; simpl; try lia;
        repeat constructor.
    + reflexivity.
    + reflexivity.
    + unfold after_register. cbn [db users with_users].
      apply lookup_insert_None. split; [reflexivity | discriminate].
  - vm_compute. discriminate.
Defined.

(** ** Playing *)

Lemma same_store_refl (w : world) : same_store w w.
Proof. unfold same_store. auto. Qed.

Lemma same_store_trans (w1 w2 w3 : world) :
  same_store w1 w2 -> same_store w2 w3 -> same_store w1 w3.
Proof.
  unfold same_store. intros (A1 & A2 & A3) (B1 & B2 & B3).
  repeat split; congruence.
Qed.

Lemma ask_question_run (U : unicode_db) (q a l : list N)
    (rest : list (list N)) (w : world) :
  stdin w = l :: rest ->
  exists w',
    ask_question U q a w
    = (Return (if bool_decide (normalize U l = a) then 1 else 0)%Z, w') /\
    stdin w' = rest /\ same_store w w'.
Proof.
  intros Hin. unfold ask_question, bind, input. rewrite Hin.
  fold (normalize U l).
  destruct (bool_decide (normalize U l = a));
    eexists; (split; [reflexivity|]); split; try reflexivity;
    unfold same_store; auto.
Qed.

Lemma sum_asks_run (U : unicode_db) (qs : list (list N * list N)) :
  forall (acc : Z) (w : world),
    (length qs <= length (stdin w))%nat ->
    exists w',
      sum_asks U qs acc w
      = (Return (acc + count_correct U qs (stdin w))%Z, w') /\
      stdin w' = drop (length qs) (stdin w) /\ same_store w w'.
Proof.
  induction qs as [|[q a] qs IH]; intros acc w Hlen.
  - exists w. simpl. rewrite Z.add_0_r. unfold ret.
    split; [reflexivity|]. split; [reflexivity | apply same_store_refl].
  - destruct (stdin w) as [|l rest] eqn:Hin; [simpl in Hlen; lia|].
    destruct (ask_question_run U q a l rest w Hin) as (w1 & Hask & Hin1 & Hs1).
    destruct (IH (acc + (if bool_decide (normalize U l = a) then 1 else 0))%Z w1)
      as (w2 & Hsum & Hin2 & Hs2).
    { rewrite Hin1. simpl in Hlen. lia. }
    exists w2. split; [|split].
    + cbn [sum_asks]. unfold bind at 1. rewrite Hask, Hsum, Hin1.
      cbn [count_correct]. rewrite Z.add_assoc. reflexivity.
    + rewrite Hin2, Hin1. reflexivity.
    + eapply same_store_trans; eassumption.
Qed.







(** ** Stored answers *)





(** ** The examples of the specification *)

Example register_short_username :
  fst (register_user xor_hashlib ascii_db (py "ab") (py "longenough1")
         (fresh_world zero_tape [])) = Return false.
Proof. reflexivity. Qed.

Example register_short_password :
  fst (register_user xor_hashlib ascii_db (py "validuser") (py "short1")
         (fresh_world zero_tape [])) = Return false.
Proof. reflexivity. Qed.

Example register_space_in_username :
  register_user xor_hashlib ascii_db (py "valid user") (py "password1")
    (fresh_world zero_tape [])
  = (Return false,
     set_log ["Username and password must contain only alphanumeric characters."%string]
       (fresh_world zero_tape [])).
Proof. reflexivity. Qed.

Example normalize_answer :
  normalize ascii_db (py "  Power Supply ") = py "power supply".
Proof. reflexivity. Qed.

Example one_correct_answer :
  count_correct ascii_db seed_questions (repeat (py " Power Supply ") 7) = 1%Z.
Proof. reflexivity. Qed.

Example utf8_e_acute : encode_utf8 [0xE9] = Return [0xC3; 0xA9].
Proof. reflexivity. Qed.

Example hexlify_bytes : hexlify [0; 0xAB; 0xFF] = py "00abff".
Proof. reflexivity. Qed.

(** * Further properties of the methods *)

(** ** [add_question] *)



(** ** [login_user] *)




Lemma utf8_char_returns (c : N) (b : list N) :
  utf8_char c = Return b -> is_surrogate c = false.
Proof.
  unfold utf8_char, is_surrogate.
  destruct (c <? 0x80) eqn:E1.
  { intros _. apply N.ltb_lt in E1. apply andb_false_iff. left.
    apply N.leb_gt. lia. }
  destruct (c <? 0x800) eqn:E2.
  { intros _. apply N.ltb_lt in E2. apply andb_false_iff. left.
    apply N.leb_gt. lia. }
  destruct (c <? 0x10000) eqn:E3.
  { destruct ((0xD800 <=? c) && (c <=? 0xDFFF)); [discriminate | reflexivity]. }
  intros _. apply N.ltb_ge in E3. apply andb_false_iff. right.
  apply N.leb_gt. lia.
Qed.

Lemma encode_utf8_surrogate (s : pystr) :
  Exists (fun c => is_surrogate c = true) s ->
  encode_utf8 s = Raise UnicodeEncodeError.
Proof.
  induction 1 as [c s Hc | c s _ IH]; simpl.
  - destruct (utf8_char c) as [b|e] eqn:Ec; simpl.
    + apply utf8_char_returns in Ec. congruence.
    + apply utf8_char_raises in Ec. subst e. reflexivity.
  - rewrite IH. destruct (utf8_char c) as [b|e] eqn:Ec; simpl.
    + reflexivity.
    + apply utf8_char_raises in Ec. subst e. reflexivity.
Qed.

(** A password holding a lone surrogate (what the console yields for bytes
    that are not UTF-8) cannot be encoded: for a username that is in the
    store, [login_user] raises [UnicodeEncodeError], which its [except]
    clause does not catch. *)
Theorem login_user_surrogate_password (L : hashlib) (u p r : list N)
    (w : world) :
  faults w = [] ->
  users (db w) !! u = Some r ->
  Exists (fun c => is_surrogate c = true) p ->
  login_user L u p w = (Raise UnicodeEncodeError, set_cursor [] w).
Proof.
  intros Hf Hu Hp.
  destruct (encode_utf8 u) as [ub|e] eqn:Hub.
  - rewrite (login_user_present L u ub p r w Hub Hf Hu).
    unfold verdict. rewrite (encode_utf8_surrogate p Hp). reflexivity.
  - unfold login_user, try_except, execute_select_user, bind.
    rewrite (bind_text_fails u e w Hub). reflexivity.
Qed.

Lemma login_user_surrogate_password_witness :
  login_user xor_hashlib (py "alice") [0xDC80]
    (set_db (with_users (insert (py "alice") (py "00")))
       (fresh_world zero_tape []))
  = (Raise UnicodeEncodeError,
     set_cursor [] (set_db (with_users (insert (py "alice") (py "00")))
                      (fresh_world zero_tape []))).
Proof.
  apply (login_user_surrogate_password xor_hashlib (py "alice") [0xDC80]
           (py "00")).
  - reflexivity.
  - apply lookup_insert_eq.
  - constructor. reflexivity.
Defined.

(** ** [register_user] *)









(** ** Passwords that HMAC cannot tell apart *)





(** ** Registration and login of different users *)



(** ** [ask_question] and [play] at their edges *)

Lemma sum_asks_eof (U : unicode_db) (qs : list (list N * list N)) :
  forall (acc : Z) (w : world),
    (length (stdin w) < length qs)%nat ->
    exists w',
      sum_asks U qs acc w = (Raise EOFError, w') /\
      stdin w' = [] /\ same_store w w'.
Proof.
  induction qs as [|[q a] qs IH]; intros acc w Hlen; [simpl in Hlen; lia|].
  destruct (stdin w) as [|l rest] eqn:Hin.
  - eexists. cbn [sum_asks]. unfold bind, ask_question, bind, input.
    rewrite Hin. split; [reflexivity|]. split; [exact Hin|].
    unfold same_store. auto.
  - destruct (ask_question_run U q a l rest w Hin) as (w1 & Hask & Hin1 & Hs1).
    destruct (IH (acc + (if bool_decide (normalize U l = a) then 1 else 0))%Z w1)
      as (w2 & Hsum & Hin2 & Hs2).
    { rewrite Hin1. simpl in Hlen. lia. }
    exists w2. split; [|split].
    + cbn [sum_asks]. unfold bind at 1. rewrite Hask, Hsum. reflexivity.
    + exact Hin2.
    + eapply same_store_trans; eassumption.
Qed.

(** The first steps of [play], up to the questions. *)
Lemma play_asks (U : unicode_db) (username : list N) (w : world) :
  faults w = [] ->
  play U username w
  = (score <- sum_asks U (questions (db w)) 0%Z ;;
     execute_insert_score username score ;;
     commit ;;
     print (py "You got " ++ str_of_int score ++ py " questions correct!") ;;
     print_percent score (length (questions (db w))))%method
      (set_cursor []
         (set_cursor (questions (db w))
            (set_stdout (stdout w ++ [OutStr (py "Welcome to Digital_Odyssey!")])
               w))).
Proof.
  intros Hf. unfold play.
  unfold bind at 1. unfold print at 1.
  unfold bind at 1. unfold execute_select_questions, bind at 1.
  rewrite db_call_quiet by exact Hf.
  unfold bind at 1. unfold fetchall, bind at 1.
  rewrite db_call_quiet by exact Hf.
  reflexivity.
Qed.

(** When the input ends before every stored question has its answer,
    [play] raises [EOFError]: all input has been read, and no score is
    recorded, neither in the connection's tables nor on disk. *)
Theorem play_input_exhausted (U : unicode_db) (username : list N) (w : world) :
  faults w = [] ->
  (length (stdin w) < length (questions (db w)))%nat ->
  fst (play U username w) = Raise EOFError /\
  db (snd (play U username w)) = db w /\
  disk (snd (play U username w)) = disk w /\
  stdin (snd (play U username w)) = [].
Proof.
  intros Hf Hlen.
  assert (H : exists w',
             play U username w = (Raise EOFError, w') /\
             db w' = db w /\ disk w' = disk w /\ stdin w' = []).
  { rewrite (play_asks U username w Hf). unfold bind at 1.
    match goal with
    | |- context [sum_asks U ?qs 0%Z ?w0] =>
        destruct (sum_asks_eof U qs 0%Z w0) as (w1 & Hsum & Hin & Hdb & Hdisk & _);
        [exact Hlen|]
    end.
    rewrite Hsum. eauto. }
  destruct H as (w' & -> & H). cbn [fst snd]. split; [reflexivity | exact H].
Qed.

Lemma play_input_exhausted_witness :
  fst (play ascii_db (py "alice") (seeded_world [py "cpu"; py "gpu"]))
  = Raise EOFError /\
  db (snd (play ascii_db (py "alice") (seeded_world [py "cpu"; py "gpu"])))
  = db (seeded_world [py "cpu"; py "gpu"]) /\
  disk (snd (play ascii_db (py "alice") (seeded_world [py "cpu"; py "gpu"])))
  = disk (seeded_world [py "cpu"; py "gpu"]) /\
  stdin (snd (play ascii_db (py "alice") (seeded_world [py "cpu"; py "gpu"])))
  = [].
Proof.
  apply play_input_exhausted.
  - reflexivity.
  - simpl. lia.
Defined.



(** What [play] leaves of the console input, the users, the questions and
    the log. *)
Lemma play_frame (U : unicode_db) (username : list N) (w : world) :
  faults w = [] ->
  (length (questions (db w)) <= length (stdin w))%nat ->
  exists o w',
    play U username w = (o, w') /\
    stdin w' = drop (length (questions (db w))) (stdin w) /\
    users (db w') = users (db w) /\
    questions (db w') = questions (db w) /\ log w' = log w.
Proof.
  intros Hf Hlen.
  rewrite (play_asks U username w Hf). unfold bind at 1.
    assert (Hlog : forall qs acc w0, log (snd (sum_asks U qs acc w0)) = log w0).
    { induction qs as [|[q a] qs IH]; intros acc w0; [reflexivity|].
      cbn [sum_asks]. unfold bind, ask_question, bind, input.
      destruct (stdin w0) as [|l rest]; [reflexivity|].
      destruct (bool_decide _); cbn; rewrite IH; reflexivity. }
    match goal with
    | |- context [sum_asks U ?qs 0%Z ?w0] =>
        pose proof (Hlog qs 0%Z w0) as Hl;
        destruct (sum_asks_run U qs 0%Z w0)
          as (w1 & Hsum & Hin & Hdb & Hdisk & Hf1);
        [exact Hlen|]
    end.
    rewrite Hsum in *. cbn [snd] in Hl.
    cbn [stdin faults db disk log set_cursor set_stdout] in *.
    unfold bind at 1. unfold execute_insert_score, bind at 1 2.
    destruct (encode_utf8 username) as [ub|e] eqn:Hub.
    2:{ (* the username cannot be bound: the INSERT raises *)
        rewrite (bind_text_fails username e w1 Hub).
        eexists _, _. split; [reflexivity|].
        cbn [db stdin log set_cursor]. rewrite Hdb, Hin, Hl. auto. }
    rewrite (bind_text_ok username ub w1 Hub).
    rewrite db_call_quiet by (rewrite Hf1; exact Hf).
    unfold bind at 1. unfold commit, bind at 1.
    rewrite db_call_quiet by (cbn [faults set_cursor set_db]; rewrite Hf1; exact Hf).
    unfold bind at 1. unfold print at 1. unfold print_percent.
    destruct (Nat.eqb (length (questions (db w))) 0);
      eexists _, _; (split; [reflexivity|]);
      cbn [db stdin log set_disk set_cursor set_db set_stdout users questions
           with_scores];
      rewrite Hdb, Hin, Hl; auto.
Qed.

(** [play] reads exactly one line for each stored question and leaves the
    rest of the input unread; it logs nothing and changes neither the users
    nor the questions table. *)
Theorem play_reads_one_line_per_question (U : unicode_db) (username : list N)
    (w : world) :
  faults w = [] ->
  (length (questions (db w)) <= length (stdin w))%nat ->
  stdin (snd (play U username w)) = drop (length (questions (db w))) (stdin w) /\
  users (db (snd (play U username w))) = users (db w) /\
  questions (db (snd (play U username w))) = questions (db w) /\
  log (snd (play U username w)) = log w.
Proof.
  intros Hf Hlen.
  destruct (play_frame U username w Hf Hlen) as (o & w' & -> & H). exact H.
Qed.

Lemma play_reads_one_line_per_question_witness :
  stdin (snd (play ascii_db (py "alice")
                (seeded_world (repeat (py "power supply") 9))))
  = drop (length (questions (db (seeded_world (repeat (py "power supply") 9)))))
      (stdin (seeded_world (repeat (py "power supply") 9))) /\
  users (db (snd (play ascii_db (py "alice")
                    (seeded_world (repeat (py "power supply") 9)))))
  = users (db (seeded_world (repeat (py "power supply") 9))) /\
  questions (db (snd (play ascii_db (py "alice")
                        (seeded_world (repeat (py "power supply") 9)))))
  = questions (db (seeded_world (repeat (py "power supply") 9))) /\
  log (snd (play ascii_db (py "alice")
              (seeded_world (repeat (py "power supply") 9))))
  = log (seeded_world (repeat (py "power supply") 9)).
Proof.
  apply play_reads_one_line_per_question.
  - reflexivity.
  - simpl. lia.
Defined.

(** ** Answers that cannot be matched *)

Section Normalise.
Variable U : unicode_db.

Lemma ascii_lower_lowered (c : N) : (c <? 0x80) = true -> lowered (ascii_lower c).
Proof.
  intros Hc. apply N.ltb_lt in Hc. unfold lowered, ascii_lower.
  destruct ((65 <=? c) && (c <=? 90)) eqn:E.
  - apply andb_true_iff in E as [E1 E2]. apply N.leb_le in E1, E2.
    split; [apply N.ltb_lt; lia|].
    assert (E' : (65 <=? c + 32) && (c + 32 <=? 90) = false).
    { apply andb_false_iff. right. apply N.leb_gt. lia. }
    rewrite E'. reflexivity.
  - rewrite E. split; [apply N.ltb_lt; lia | reflexivity].
Qed.

Lemma lowered_map (s : pystr) :
  is_ascii s = true -> Forall lowered (map ascii_lower s).
Proof.
  unfold is_ascii. induction s as [|c s IH]; simpl; intros H; [constructor|].
  apply andb_true_iff in H as [Hc Hs].
  constructor; [apply ascii_lower_lowered; exact Hc | apply IH; exact Hs].
Qed.

Lemma str_lower_lowered (s : pystr) : Forall lowered s -> str_lower U s = s.
Proof.
  intros H. unfold str_lower.
  assert (Ha : is_ascii s = true).
  { unfold is_ascii. induction H as [|c s [Hc _] _ IH]; simpl; [reflexivity|].
    rewrite Hc, IH. reflexivity. }
  rewrite Ha. induction H as [|c s [_ Hc] _ IH]; simpl; [reflexivity|].
  rewrite Hc. f_equal. apply IH.
  unfold is_ascii in *. simpl in Ha. apply andb_true_iff in Ha as [_ Ha].
  exact Ha.
Qed.

Lemma lstrip_Forall (P : N -> Prop) (sp : N -> bool) (s : pystr) :
  Forall P s -> Forall P (lstrip sp s).
Proof.
  induction 1 as [|c s Hc Hs IH]; simpl; [constructor|].
  destruct (sp c); [exact IH | constructor; assumption].
Qed.

Lemma str_strip_Forall (P : N -> Prop) (s : pystr) :
  Forall P s -> Forall P (str_strip U s).
Proof.
  intros H. unfold str_strip.
  apply Forall_rev, lstrip_Forall, Forall_rev, lstrip_Forall, H.
Qed.

Lemma lstrip_idem (sp : N -> bool) (s : pystr) :
  lstrip sp (lstrip sp s) = lstrip sp s.
Proof.
  induction s as [|c s IH]; simpl; [reflexivity|].
  destruct (sp c) eqn:E; [exact IH|]. simpl. rewrite E. reflexivity.
Qed.

Lemma lstrip_head (sp : N -> bool) (s : pystr) (c : N) (t : pystr) :
  lstrip sp s = c :: t -> sp c = false.
Proof.
  induction s as [|x s IH]; simpl; [discriminate|].
  destruct (sp x) eqn:E; [exact IH|]. intros H. congruence.
Qed.

Lemma lstrip_snoc (sp : N -> bool) (l : pystr) (c : N) :
  sp c = false -> lstrip sp (l ++ [c]) = lstrip sp l ++ [c].
Proof.
  intros Hc. induction l as [|x l IH]; simpl.
  - rewrite Hc. reflexivity.
  - destruct (sp x); [exact IH | reflexivity].
Qed.

Lemma str_strip_idem (s : pystr) : str_strip U (str_strip U s) = str_strip U s.
Proof.
  unfold str_strip.
  set (sp := char_isspace U).
  destruct (lstrip sp s) as [|c t] eqn:Et; [reflexivity|].
  pose proof (lstrip_head sp s c t Et) as Hc.
  assert (Hr : rev (lstrip sp (rev (c :: t))) = c :: rev (lstrip sp (rev t))).
  { simpl rev at 2. rewrite (lstrip_snoc sp (rev t) c Hc).
    rewrite rev_app_distr. reflexivity. }
  rewrite Hr. simpl lstrip at 2. rewrite Hc.
  rewrite <- Hr. rewrite rev_involutive, lstrip_idem. reflexivity.
Qed.

(** On ASCII input the normalisation of [ask_question] is idempotent. *)
Lemma normalize_idem (s : pystr) :
  is_ascii s = true -> normalize U (normalize U s) = normalize U s.
Proof.
  intros Ha. unfold normalize.
  assert (Hl : str_lower U s = map ascii_lower s)
    by (unfold str_lower; rewrite Ha; reflexivity).
  rewrite Hl.
  rewrite (str_lower_lowered (str_strip U (map ascii_lower s))).
  - apply str_strip_idem.
  - apply str_strip_Forall, lowered_map, Ha.
Qed.

End Normalise.

(** A stored answer that is not in lower-cased, stripped form can never be
    given: whatever ASCII line the player types for it, [ask_question]
    returns 0. *)
Theorem ask_question_unmatchable_answer (U : unicode_db) (q a line : list N)
    (rest : list (list N)) (w : world) :
  normalize U a <> a ->
  is_ascii line = true ->
  stdin w = line :: rest ->
  fst (ask_question U q a w) = Return 0%Z.
Proof.
  intros Ha Hline Hin.
  destruct (ask_question_run U q a line rest w Hin) as (w' & -> & _).
  cbn [fst]. rewrite bool_decide_false; [reflexivity|].
  intros Heq. apply Ha. rewrite <- Heq. apply normalize_idem. exact Hline.
Qed.

Lemma ask_question_unmatchable_answer_witness :
  fst (ask_question ascii_db (py "Capital of France? ") (py "Paris")
         (fresh_world zero_tape [py "Paris"])) = Return 0%Z.
Proof.
  apply (ask_question_unmatchable_answer ascii_db (py "Capital of France? ")
           (py "Paris") (py "Paris") []).
  - discriminate.
  - reflexivity.
  - reflexivity.
Defined.

(** ** The entry point *)









(** ** The console during [play] *)




Example play_console_example :
  stdout (snd (play ascii_db (py "alice")
                 (set_db (with_questions (fun _ => [(py "2+2? ", py "four")]))
                    (fresh_world zero_tape [py " FOUR "]))))
  = [OutStr (py "Welcome to Digital_Odyssey!"); OutStr (py "2+2? ");
     OutStr (py "Correct!"); OutStr (py "You got 1 questions correct!");
     OutPercent 1 1].
Proof. reflexivity. Qed.

(** ** Adding a question, then playing *)


